(** * smithy-aws-core: the restJson1 protocol binding

    A shallow embedding of
    - [smithy_aws_core/traits.py]: [RestJson1Trait], [SigV4Trait];
    - [smithy_aws_core/aio/protocols.py]: [AWSErrorIdentifier],
      [AWSJSONDocument].

    Python values are modelled by an inductive type, a call that may raise
    by the error monad [py], dictionaries with [str] keys by [gmap string].
    A Python [str] is a [string]; one [ascii] stands for one character.
    The [float], [Decimal] and [datetime] members of [DocumentValue] are not
    part of the embedding: none of the modelled code inspects them. *)

From Stdlib Require Import ZArith Ascii String.
From stdpp Require Import base option list strings gmap.

Local Open Scope string_scope.

#[global] Instance byte_eq_dec : EqDecision Byte.byte := Byte.byte_eq_dec.

(** ** Exceptions and the error monad *)

Inductive exn : Type :=
| AssertionError
| KeyError (key : string)
| IndexError
| TypeError
| ValueError
| DiscriminatorError (msg : string).

Inductive py (A : Type) : Type :=
| Return (a : A)
| Raise (e : exn).

Arguments Return {A} a.
Arguments Raise {A} e.

#[global] Instance py_ret : MRet py := fun A a => Return a.
#[global] Instance py_bind : MBind py := fun A B f m =>
  match m with
  | Return a => f a
  | Raise e => Raise e
  end.

Definition returns {A} (m : py A) : Prop := exists a, m = Return a.
Definition raises {A} (m : py A) : Prop := exists e, m = Raise e.

(** The [assert] statement (assertions enabled, Python's default mode). *)
Definition assert (b : bool) : py unit :=
  if b then Return tt else Raise AssertionError.

(** ** Document values *)

#[local] Unset Elimination Schemes.
Inductive DocumentValue : Type :=
| DNone
| DBool (b : bool)
| DInt (n : Z)
| DStr (s : string)
| DBytes (bs : list Byte.byte)
| DList (items : list DocumentValue)
| DMap (entries : gmap string DocumentValue).
#[local] Set Elimination Schemes.

(** Structural equality of document values is decidable. *)
Fixpoint DocumentValue_eq_dec (a b : DocumentValue) {struct a}
    : Decision (a = b).
Proof.
  refine
    (match a, b with
     | DNone, DNone => left _
     | DBool x, DBool y => cast_if (decide (x = y))
     | DInt x, DInt y => cast_if (decide (x = y))
     | DStr x, DStr y => cast_if (decide (x = y))
     | DBytes x, DBytes y => cast_if (decide (x = y))
     | DList x, DList y =>
         cast_if (@decide (x = y) (@list_eq_dec _ DocumentValue_eq_dec _ _))
     | DMap x, DMap y =>
         cast_if (@decide (x = y)
                    (@gmap_eq_dec _ _ _ _ DocumentValue_eq_dec _ _))
     | _, _ => right _
     end); congruence.
Defined.

#[global] Instance DocumentValue_EqDecision : EqDecision DocumentValue :=
  DocumentValue_eq_dec.

(** Truth value of an object, as tested by [or] and [not]. *)
Definition truthy (v : DocumentValue) : bool :=
  match v with
  | DNone => false
  | DBool b => b
  | DInt n => negb (Z.eqb n 0)
  | DStr s => negb (bool_decide (s = ""))
  | DBytes bs => negb (bool_decide (bs = []))
  | DList items => match items with [] => false | _ :: _ => true end
  | DMap entries => negb (bool_decide (entries = ∅))
  end.

Definition isinstance_str (v : DocumentValue) : bool :=
  match v with DStr _ => true | _ => false end.

(** [collections.abc.Sequence] has [list], [str] and [bytes] among the
    document values. *)
Definition isinstance_Sequence (v : DocumentValue) : bool :=
  match v with
  | DList _ | DStr _ | DBytes _ => true
  | _ => false
  end.

Fixpoint chars (s : string) : list DocumentValue :=
  match s with
  | EmptyString => []
  | String c rest => DStr (String c EmptyString) :: chars rest
  end.

(** The items produced by iterating a sequence: the elements of a list,
    the one-character strings of a [str], the integers of a [bytes]. *)
Definition iter (v : DocumentValue) : list DocumentValue :=
  match v with
  | DList items => items
  | DStr s => chars s
  | DBytes bs => (fun b => DInt (Z.of_N (Byte.to_N b))) <$> bs
  | _ => []
  end.

(** [tuple(v)] of a sequence. *)
Definition tuple (v : DocumentValue) : list DocumentValue := iter v.

(** [d.get(key, default)]. *)
Definition dict_get (d : gmap string DocumentValue) (key : string)
    (dflt : DocumentValue) : DocumentValue :=
  default dflt (d !! key).

(** [d[key]]. *)
Definition dict_getitem (d : gmap string DocumentValue) (key : string)
    : py DocumentValue :=
  match d !! key with
  | Some v => Return v
  | None => Raise (KeyError key)
  end.

Definition isinstance_Mapping (v : DocumentValue) : bool :=
  match v with DMap _ => true | _ => false end.

(** [v[key]] with a [str] key: only a mapping can be subscripted by it. *)
Definition getitem (v : DocumentValue) (key : string) : py DocumentValue :=
  match v with
  | DMap entries => dict_getitem entries key
  | _ => Raise TypeError
  end.

(** [l[i]] on a list. *)
Definition list_getitem {A} (l : list A) (i : nat) : py A :=
  match l !! i with
  | Some x => Return x
  | None => Raise IndexError
  end.

(** ** Shape identifiers *)

(** Modelled from the spec: [ShapeID] of [smithy_core.shapes] is not among
    the sources; a namespaced identifier [namespace#name] with structural
    equality. *)
Record ShapeID : Type := mkShapeID {
  namespace : string;
  name : string
}.

#[global] Instance ShapeID_eq_dec : EqDecision ShapeID.
Proof. solve_decision. Defined.

(** ** Traits ([traits.py]) *)

Record DynamicTrait : Type := mkDynamicTrait {
  dynamic_id : ShapeID;
  dynamic_document_value : DocumentValue
}.

(** The argument of a trait constructor: [DocumentValue | DynamicTrait]. *)
Inductive TraitValue : Type :=
| Raw (v : DocumentValue)
| Dynamic (d : DynamicTrait).

(** Modelled from the spec: [Trait.__init__] of [smithy_core.traits] is not
    among the sources. The trait is built from a raw document value, which
    it keeps as its backing value [document_value]; a [DynamicTrait] hands
    over the document value it carries, and is refused with a [ValueError]
    when its id is not the id [self_id] of the class. The constructor
    stores the value and does nothing else: it runs no validation hook. *)
Definition Trait_init (self_id : ShapeID) (value : TraitValue)
    : py DocumentValue :=
  match value with
  | Raw v => Return v
  | Dynamic d =>
      if decide (dynamic_id d = self_id)
      then Return (dynamic_document_value d)
      else Raise ValueError
  end.

Module RestJson1.

Definition id : ShapeID := mkShapeID "aws.protocols" "restJson1".

Record RestJson1Trait : Type := mkRestJson1Trait {
  document_value : DocumentValue;
  http : list DocumentValue;
  event_stream_http : list DocumentValue
}.

(** [value or {}]: the local [document_value] of [__init__]. *)
Definition value_or_empty (value : TraitValue) : TraitValue :=
  match value with
  | Raw v => if truthy v then Raw v else Raw (DMap ∅)
  | Dynamic d => Dynamic d
  end.

(** [assert isinstance(document_value, Mapping)], giving the mapping. *)
Definition assert_Mapping (value : TraitValue)
    : py (gmap string DocumentValue) :=
  match value with
  | Raw (DMap entries) => Return entries
  | _ => Raise AssertionError
  end.

(** [for val in versions: assert isinstance(val, str)]. *)
Fixpoint assert_all_str (vals : list DocumentValue) : py unit :=
  match vals with
  | [] => Return tt
  | val :: rest => assert (isinstance_str val);; assert_all_str rest
  end.

Definition init (value : TraitValue) : py RestJson1Trait :=
  backing ← Trait_init id value;
  mapping ← assert_Mapping (value_or_empty value);
  let http_versions := dict_get mapping "http" (DList [DStr "http/1.1"]) in
  assert (isinstance_Sequence http_versions);;
  assert_all_str (iter http_versions);;
  let self_http := tuple http_versions in
  let event_stream_http_versions :=
    dict_get mapping "eventStreamHttp" DNone in
  if negb (truthy event_stream_http_versions) then
    Return (mkRestJson1Trait backing self_http self_http)
  else
    assert (isinstance_Sequence event_stream_http_versions);;
    assert_all_str (iter event_stream_http_versions);;
    Return (mkRestJson1Trait backing self_http
              (tuple event_stream_http_versions)).

(** *** Methods generated by [@dataclass(init=False, frozen=True)]

    Python's [==], [hash] and [repr] on the values held by the fields are
    parameters; the generated methods select the fields by the flags of
    their [field(...)] declarations. *)

Inductive PyVal : Type :=
| VDoc (v : DocumentValue)
| VTuple (items : list DocumentValue).

Record field : Type := mkField {
  field_name : string;
  field_get : RestJson1Trait -> PyVal;
  field_repr : bool;
  field_hash : option bool;
  field_compare : bool
}.

(** The dataclass fields in definition order: [document_value], declared
    by the base class [Trait] with the default flags, then the two fields
    of lines 20-25. *)
Definition fields : list field :=
  [ mkField "document_value" (fun t => VDoc (document_value t))
      true None true;
    mkField "http" (fun t => VTuple (http t))
      false (Some false) false;
    mkField "event_stream_http" (fun t => VTuple (event_stream_http t))
      false (Some false) false ].

(** A field enters the hash when [hash] is true, or is [None] and
    [compare] is true. *)
Definition in_hash (f : field) : bool :=
  match field_hash f with
  | Some b => b
  | None => field_compare f
  end.

Fixpoint join (sep : string) (parts : list string) : string :=
  match parts with
  | [] => ""
  | [p] => p
  | p :: rest => p ++ sep ++ join sep rest
  end.

Section Dataclass.

Variable py_eq : PyVal -> PyVal -> bool.
Variable py_hash : list PyVal -> py Z.
Variable py_repr : PyVal -> string.

(** [==] on two tuples. *)
Fixpoint tuple_eq (xs ys : list PyVal) : bool :=
  match xs, ys with
  | [], [] => true
  | x :: xs', y :: ys' => py_eq x y && tuple_eq xs' ys'
  | _, _ => false
  end.

Definition values_of (sel : field -> bool) (self : RestJson1Trait)
    : list PyVal :=
  (fun f => field_get f self) <$> filter (fun f => sel f = true) fields.

(** [__eq__] between two instances of the class. *)
Definition eq (self other : RestJson1Trait) : bool :=
  tuple_eq (values_of field_compare self) (values_of field_compare other).

(** [__hash__]. *)
Definition hash (self : RestJson1Trait) : py Z :=
  py_hash (values_of in_hash self).

(** [__repr__]. *)
Definition repr (self : RestJson1Trait) : string :=
  "RestJson1Trait("
  ++ join ", "
       ((fun f => field_name f ++ "=" ++ py_repr (field_get f self))
          <$> filter (fun f => field_repr f = true) fields)
  ++ ")".

End Dataclass.

End RestJson1.

Module SigV4.

Definition id : ShapeID := mkShapeID "aws.auth" "sigv4".

Record SigV4Trait : Type := mkSigV4Trait {
  document_value : DocumentValue
}.

Definition post_init (self : SigV4Trait) : py unit :=
  assert (isinstance_Mapping (document_value self));;
  entry ← getitem (document_value self) "name";
  assert (isinstance_str entry).

(** The [name] property. *)
Definition name (self : SigV4Trait) : py DocumentValue :=
  getitem (document_value self) "name".

(** Construction. The class is declared [@dataclass(init=False)] and has
    no [__init__] of its own, so no generated [__init__] calls
    [__post_init__]: constructing an instance is the constructor inherited
    from [Trait], which stores the backing value. *)
Definition init (value : TraitValue) : py SigV4Trait :=
  backing ← Trait_init id value;
  Return (mkSigV4Trait backing).

End SigV4.

(** ** The protocol ([aio/protocols.py]) *)

Module Protocols.

(** Modelled from the spec: the HTTP response view of [smithy_http] is not
    among the sources; an ordered, case-insensitive-keyed mapping of
    header name to string values. The entries are keyed by the lower-cased
    field name. *)
Record Field : Type := mkField {
  field_name : string;
  values : list string
}.

Record Fields : Type := mkFields {
  entries : gmap string Field
}.

Definition lower_ascii (c : ascii) : ascii :=
  let n := nat_of_ascii c in
  if (65 <=? n)%nat && (n <=? 90)%nat then ascii_of_nat (n + 32) else c.

Fixpoint lower (s : string) : string :=
  match s with
  | EmptyString => EmptyString
  | String c rest => String (lower_ascii c) (lower rest)
  end.

(** [key in fields]. *)
Definition Fields_contains (fs : Fields) (key : string) : bool :=
  bool_decide (is_Some (entries fs !! lower key)).

(** [fields[key]]. *)
Definition Fields_getitem (fs : Fields) (key : string) : py Field :=
  match entries fs !! lower key with
  | Some f => Return f
  | None => Raise (KeyError key)
  end.

Record HTTPResponse : Type := mkHTTPResponse {
  status : Z;
  fields : Fields
}.

(** Modelled from the spec: [ShapeType] of [smithy_core.shapes] is not
    among the sources; the kinds of shape of the model, a plain structure
    among them. *)
Inductive ShapeType : Type :=
| BLOB | BOOLEAN | STRING | TIMESTAMP | BYTE | SHORT | INTEGER | LONG
| FLOAT | DOUBLE | BIG_INTEGER | BIG_DECIMAL | DOCUMENT | ENUM | INT_ENUM
| LIST | MAP | STRUCTURE | UNION | OPERATION | RESOURCE | SERVICE | MEMBER.

#[global] Instance ShapeType_eq_dec : EqDecision ShapeType.
Proof. solve_decision. Defined.

Definition ShapeType_name (t : ShapeType) : string :=
  match t with
  | BLOB => "BLOB" | BOOLEAN => "BOOLEAN" | STRING => "STRING"
  | TIMESTAMP => "TIMESTAMP" | BYTE => "BYTE" | SHORT => "SHORT"
  | INTEGER => "INTEGER" | LONG => "LONG" | FLOAT => "FLOAT"
  | DOUBLE => "DOUBLE" | BIG_INTEGER => "BIG_INTEGER"
  | BIG_DECIMAL => "BIG_DECIMAL" | DOCUMENT => "DOCUMENT" | ENUM => "ENUM"
  | INT_ENUM => "INT_ENUM" | LIST => "LIST" | MAP => "MAP"
  | STRUCTURE => "STRUCTURE" | UNION => "UNION" | OPERATION => "OPERATION"
  | RESOURCE => "RESOURCE" | SERVICE => "SERVICE" | MEMBER => "MEMBER"
  end.

(** A member of an [Enum] formatted in an f-string. *)
Definition ShapeType_str (t : ShapeType) : string :=
  "ShapeType." ++ ShapeType_name t.

Record Schema : Type := mkSchema {
  schema_id : ShapeID;
  schema_shape_type : ShapeType
}.

Record APIOperation : Type := mkAPIOperation {
  schema : Schema
}.

Record JSONSettings : Type := mkJSONSettings {
  default_namespace : string
}.

(** A JSON document: the decoded payload, the schema assigned to it, the
    codec settings, and the shape type its [shape_type] property gives. *)
Record AWSJSONDocument : Type := mkAWSJSONDocument {
  _value : DocumentValue;
  _schema : Schema;
  _settings : JSONSettings;
  shape_type : ShapeType
}.

Definition _HEADER_KEY : string := "x-amzn-errortype".

Section Collaborators.

(** The two parsers of [smithy_aws_core.utils] are collaborators of this
    module and are taken as parameters; like any call they may raise. *)
Variable parse_error_code : string -> string -> py (option ShapeID).
Variable parse_document_discriminator
  : AWSJSONDocument -> string -> py (option ShapeID).

Definition identify (operation : APIOperation) (response : HTTPResponse)
    : py (option ShapeID) :=
  if negb (Fields_contains (fields response) _HEADER_KEY) then
    Return None
  else
    error_field ← Fields_getitem (fields response) _HEADER_KEY;
    code ← (if (0 <? length (values error_field))%nat
            then first ← list_getitem (values error_field) 0;
                 Return (Some first)
            else Return None);
    match code with
    | Some c =>
        parse_error_code c (namespace (schema_id (schema operation)))
    | None => Return None
    end.

Definition discriminator (self : AWSJSONDocument) : py ShapeID :=
  if decide (shape_type self = STRUCTURE) then
    Return (schema_id (_schema self))
  else
    parsed ← parse_document_discriminator self
               (default_namespace (_settings self));
    match parsed with
    | None =>
        Raise (DiscriminatorError
                 ("Unable to parse discriminator for "
                  ++ ShapeType_str (shape_type self) ++ " document."))
    | Some shape_id => Return shape_id
    end.

End Collaborators.

End Protocols.

(** * Vocabulary of the properties *)

(** A sequence all of whose items are strings. *)
Definition str_sequence (v : DocumentValue) : Prop :=
  isinstance_Sequence v = true /\
  Forall (fun x => isinstance_str x = true) (iter v).

(** The two entries read by [RestJson1Trait.__init__]. *)
Definition http_entry (m : gmap string DocumentValue) : DocumentValue :=
  dict_get m "http" (DList [DStr "http/1.1"]).

Definition event_stream_entry (m : gmap string DocumentValue)
    : DocumentValue :=
  dict_get m "eventStreamHttp" DNone.

(** What a successful construction from a mapping yields. *)
Definition built (m : gmap string DocumentValue)
    : RestJson1.RestJson1Trait :=
  RestJson1.mkRestJson1Trait (DMap m) (tuple (http_entry m))
    (if truthy (event_stream_entry m)
     then tuple (event_stream_entry m)
     else tuple (http_entry m)).

(** The mapping [{"http": ["h2"], "eventStreamHttp": ["h2c"]}]. *)
Definition h2_h2c : gmap string DocumentValue :=
  {[ "http" := DList [DStr "h2"]; "eventStreamHttp" := DList [DStr "h2c"] ]}.

(** Sample collaborators and built-ins, on which the theorems are run. *)

(** An error-code parser that qualifies the code with the namespace. *)
Definition qualify (code ns : string) : py (option ShapeID) :=
  Return (Some (mkShapeID ns code)).

(** A discriminator parser that reads a [__type] tag of the payload. *)
Definition type_tag (doc : Protocols.AWSJSONDocument) (ns : string)
    : py (option ShapeID) :=
  match Protocols._value doc with
  | DMap m =>
      match m !! "__type" with
      | Some (DStr tag) => Return (Some (mkShapeID ns tag))
      | _ => Return None
      end
  | _ => Return None
  end.

#[global] Instance PyVal_eq_dec : EqDecision RestJson1.PyVal.
Proof. solve_decision. Defined.

Definition structural_eq (a b : RestJson1.PyVal) : bool :=
  bool_decide (a = b).

Definition hashable (v : RestJson1.PyVal) : bool :=
  match v with
  | RestJson1.VDoc (DList _) | RestJson1.VDoc (DMap _) => false
  | _ => true
  end.

Definition sample_hash (vs : list RestJson1.PyVal) : py Z :=
  if forallb hashable vs then Return (Z.of_nat (length vs))
  else Raise TypeError.

Definition sample_repr (v : RestJson1.PyVal) : string :=
  match v with
  | RestJson1.VDoc DNone => "None"
  | _ => "..."
  end.

(** A response carrying the error-type header with the given values. *)
Definition error_response (vals : list string) : Protocols.HTTPResponse :=
  Protocols.mkHTTPResponse 400
    (Protocols.mkFields
       {[ "x-amzn-errortype" := Protocols.mkField "X-Amzn-Errortype" vals ]}).

Definition example_operation : Protocols.APIOperation :=
  Protocols.mkAPIOperation
    (Protocols.mkSchema (mkShapeID "com.example" "GetThing")
       Protocols.OPERATION).

(** A union document with the given payload, default namespace [ns]. *)
Definition union_document (payload : DocumentValue)
    : Protocols.AWSJSONDocument :=
  Protocols.mkAWSJSONDocument payload
    (Protocols.mkSchema (mkShapeID "com.example" "Choice") Protocols.UNION)
    (Protocols.mkJSONSettings "ns") Protocols.UNION.

(** * Properties *)

(** ** Sequences of strings *)

Lemma chars_nil (s : string) : chars s = [] <-> s = "".
Proof. destruct s; simpl; split; congruence. Qed.

Lemma chars_str (s : string) :
  Forall (fun x => isinstance_str x = true) (chars s).
Proof. induction s; simpl; constructor; auto. Qed.

Lemma str_is_str_sequence (s : string) : str_sequence (DStr s).
Proof. split; [reflexivity | apply chars_str]. Qed.

Lemma str_list_is_str_sequence (ss : list string) :
  str_sequence (DList (DStr <$> ss)).
Proof.
  split; [reflexivity |].
  simpl. induction ss; simpl; constructor; auto.
Qed.

(** A sequence is false exactly when it has no items. *)
Lemma truthy_sequence (v : DocumentValue) :
  isinstance_Sequence v = true -> truthy v = false <-> iter v = [].
Proof.
  destruct v as [| | | s | bs | items |]; simpl; try discriminate; intros _.
  - rewrite chars_nil. case_bool_decide; simpl; split; congruence.
  - case_bool_decide; subst; simpl; [tauto |].
    destruct bs; simpl; split; congruence.
  - destruct items; split; congruence.
Qed.

Lemma assert_all_str_Return (vals : list DocumentValue) :
  RestJson1.assert_all_str vals = Return tt <->
  Forall (fun x => isinstance_str x = true) vals.
Proof.
  induction vals as [| val rest IH]; simpl.
  - split; [constructor | reflexivity].
  - rewrite Forall_cons, <- IH.
    destruct (isinstance_str val); simpl; split; try tauto;
      intros; try discriminate; intuition discriminate.
Qed.

Lemma assert_all_str_unit (vals : list DocumentValue) (u : unit) :
  RestJson1.assert_all_str vals = Return u <->
  Forall (fun x => isinstance_str x = true) vals.
Proof. destruct u. apply assert_all_str_Return. Qed.

(** ** [RestJson1Trait.__init__] on a mapping *)

Lemma value_or_empty_DMap (m : gmap string DocumentValue) :
  RestJson1.value_or_empty (Raw (DMap m)) = Raw (DMap m).
Proof.
  unfold RestJson1.value_or_empty; simpl.
  case_bool_decide; subst; reflexivity.
Qed.

Lemma init_mapping_Return (m : gmap string DocumentValue) :
  str_sequence (http_entry m) ->
  (truthy (event_stream_entry m) = true ->
   str_sequence (event_stream_entry m)) ->
  RestJson1.init (Raw (DMap m)) = Return (built m).
Proof.
  intros [Hseq Hstr] Hev.
  unfold RestJson1.init, built. simpl Trait_init.
  rewrite value_or_empty_DMap. simpl.
  fold (http_entry m) (event_stream_entry m).
  rewrite Hseq. simpl.
  apply assert_all_str_Return in Hstr. rewrite Hstr. simpl.
  destruct (truthy (event_stream_entry m)) eqn:Ht; simpl; [| reflexivity].
  destruct (Hev eq_refl) as [Hseq' Hstr'].
  rewrite Hseq'. simpl.
  apply assert_all_str_Return in Hstr'. rewrite Hstr'. reflexivity.
Qed.

Lemma init_mapping_inv (m : gmap string DocumentValue)
    (t : RestJson1.RestJson1Trait) :
  RestJson1.init (Raw (DMap m)) = Return t ->
  str_sequence (http_entry m) /\
  (truthy (event_stream_entry m) = true ->
   str_sequence (event_stream_entry m)) /\
  t = built m.
Proof.
  unfold RestJson1.init, built. simpl Trait_init.
  rewrite value_or_empty_DMap. simpl.
  fold (http_entry m) (event_stream_entry m).
  unfold str_sequence.
  destruct (isinstance_Sequence (http_entry m)); simpl; [| discriminate].
  destruct (RestJson1.assert_all_str (iter (http_entry m))) as [[] | e] eqn:Hh;
    simpl; [| discriminate].
  apply assert_all_str_Return in Hh.
  destruct (truthy (event_stream_entry m)); simpl.
  - destruct (isinstance_Sequence (event_stream_entry m)); simpl;
      [| discriminate].
    destruct (RestJson1.assert_all_str (iter (event_stream_entry m)))
      as [[] | e] eqn:He; simpl; [| discriminate].
    apply assert_all_str_Return in He.
    intros [= <-]. auto.
  - intros [= <-]. split; [auto |]. split; [discriminate | reflexivity].
Qed.

(** ** Claims on [RestJson1Trait] *)

(** C5, as stated, fails: the mapping [{"http": []}] is accepted and the
    [http] field of the trait built from it is the empty tuple. *)
Lemma http_nonempty_counterexample :
  RestJson1.init (Raw (DMap {[ "http" := DList [] ]}))
  = Return (RestJson1.mkRestJson1Trait (DMap {[ "http" := DList [] ]}) [] [])
  /\ RestJson1.http
       (RestJson1.mkRestJson1Trait (DMap {[ "http" := DList [] ]}) [] [])
     = [].
Proof. split; [vm_compute |]; reflexivity. Qed.

(** C5 (amended): when construction from a mapping succeeds, every item of
    the [http] field is a string; the field is [("http/1.1",)] when the key
    [http] is absent, and otherwise the tuple of the items of the [http]
    entry in their order, which is empty when that entry is empty. *)
Theorem http_sequence_of_strings (m : gmap string DocumentValue)
    (t : RestJson1.RestJson1Trait) :
  RestJson1.init (Raw (DMap m)) = Return t ->
  Forall (fun x => isinstance_str x = true) (RestJson1.http t) /\
  (m !! "http" = None -> RestJson1.http t = [DStr "http/1.1"]) /\
  (forall v, m !! "http" = Some v -> RestJson1.http t = tuple v).
Proof.
  intros Hinit.
  destruct (init_mapping_inv m t Hinit) as ([_ Hstr] & _ & ->).
  unfold built; simpl. split; [exact Hstr |].
  unfold http_entry, dict_get.
  split.
  - intros ->. reflexivity.
  - intros v ->. reflexivity.
Qed.

Lemma http_sequence_of_strings_witness :
  RestJson1.init (Raw (DMap {[ "http" := DList [DStr "h2"] ]}))
  = Return (built {[ "http" := DList [DStr "h2"] ]}) /\
  Forall (fun x => isinstance_str x = true)
    (RestJson1.http (built {[ "http" := DList [DStr "h2"] ]})).
Proof.
  assert (H : RestJson1.init (Raw (DMap {[ "http" := DList [DStr "h2"] ]}))
              = Return (built {[ "http" := DList [DStr "h2"] ]}))
    by (vm_compute; reflexivity).
  split; [exact H |].
  exact (proj1 (http_sequence_of_strings _ _ H)).
Defined.

(** C6: constructing the trait from [None] succeeds, with [http] and
    [event_stream_http] both [("http/1.1",)]. *)
Theorem init_None :
  RestJson1.init (Raw DNone)
  = Return (RestJson1.mkRestJson1Trait DNone
              [DStr "http/1.1"] [DStr "http/1.1"]).
Proof. reflexivity. Qed.

(** C7: for a mapping whose [http] and [eventStreamHttp] entries, when
    present, are sequences of strings, construction succeeds; the
    [event_stream_http] field equals the resolved [http] field when
    [eventStreamHttp] is absent or empty, and is the tuple of the items of
    [eventStreamHttp], in their order and whatever [http] is, when it is
    present and non-empty. *)
Theorem event_stream_http_resolution (m : gmap string DocumentValue) :
  (forall v, m !! "http" = Some v -> str_sequence v) ->
  (forall v, m !! "eventStreamHttp" = Some v -> str_sequence v) ->
  exists t,
    RestJson1.init (Raw (DMap m)) = Return t /\
    RestJson1.http t = tuple (http_entry m) /\
    (m !! "eventStreamHttp" = None ->
     RestJson1.event_stream_http t = RestJson1.http t) /\
    (forall v, m !! "eventStreamHttp" = Some v -> iter v = [] ->
     RestJson1.event_stream_http t = RestJson1.http t) /\
    (forall v, m !! "eventStreamHttp" = Some v -> iter v <> [] ->
     RestJson1.event_stream_http t = tuple v).
Proof.
  intros Hhttp Hev.
  assert (Hh : str_sequence (http_entry m)).
  { unfold http_entry, dict_get.
    destruct (m !! "http") as [v |] eqn:E; simpl; [auto |].
    apply (str_list_is_str_sequence ["http/1.1"]). }
  assert (He : truthy (event_stream_entry m) = true ->
               str_sequence (event_stream_entry m)).
  { unfold event_stream_entry, dict_get.
    destruct (m !! "eventStreamHttp") as [v |] eqn:E; simpl;
      [auto | discriminate]. }
  exists (built m). split; [apply init_mapping_Return; assumption |].
  split; [reflexivity |].
  unfold built, event_stream_entry, dict_get; simpl.
  split; [| split].
  - intros ->. reflexivity.
  - intros v E Hnil. rewrite E; simpl.
    apply truthy_sequence in Hnil; [| apply (Hev v E)].
    rewrite Hnil. reflexivity.
  - intros v E Hne. rewrite E; simpl.
    destruct (truthy v) eqn:Ht; [reflexivity |].
    apply truthy_sequence in Ht; [contradiction | apply (Hev v E)].
Qed.

Lemma event_stream_http_resolution_witness :
  exists t,
    RestJson1.init (Raw (DMap h2_h2c)) = Return t /\
    RestJson1.http t = [DStr "h2"] /\
    RestJson1.event_stream_http t = [DStr "h2c"].
Proof.
  destruct (event_stream_http_resolution h2_h2c) as (t & Hi & Hh & _ & _ & He).
  - intros v E. vm_compute in E. injection E as <-.
    apply (str_list_is_str_sequence ["h2"]).
  - intros v E. vm_compute in E. injection E as <-.
    apply (str_list_is_str_sequence ["h2c"]).
  - exists t. split; [exact Hi |]. split; [exact Hh |].
    apply (He (DList [DStr "h2c"])); [vm_compute; reflexivity | discriminate].
Defined.

(** C10, as stated, fails: the empty string as the [eventStreamHttp] entry
    is accepted, but [event_stream_http] is then the [http] tuple and not
    the (empty) tuple of the characters of the string. *)
Lemma bare_string_counterexample :
  RestJson1.init
    (Raw (DMap {[ "http" := DList [DStr "h2"]; "eventStreamHttp" := DStr "" ]}))
  = Return
      (RestJson1.mkRestJson1Trait
         (DMap {[ "http" := DList [DStr "h2"]; "eventStreamHttp" := DStr "" ]})
         [DStr "h2"] [DStr "h2"]) /\
  RestJson1.event_stream_http
    (RestJson1.mkRestJson1Trait
       (DMap {[ "http" := DList [DStr "h2"]; "eventStreamHttp" := DStr "" ]})
       [DStr "h2"] [DStr "h2"])
  <> chars "".
Proof. split; [vm_compute; reflexivity | discriminate]. Qed.

(** C10 (amended): a bare string as the [http] entry is accepted and stored
    as the tuple of its characters, and so is a non-empty bare string as
    the [eventStreamHttp] entry, provided the other entry is valid; the
    empty string as the [eventStreamHttp] entry is accepted too, and
    [event_stream_http] is then the [http] tuple. *)
Theorem bare_string_accepted (m : gmap string DocumentValue) (s : string) :
  (m !! "http" = Some (DStr s) ->
   (truthy (event_stream_entry m) = true ->
    str_sequence (event_stream_entry m)) ->
   exists t, RestJson1.init (Raw (DMap m)) = Return t /\
             RestJson1.http t = chars s) /\
  (m !! "eventStreamHttp" = Some (DStr s) -> s <> "" ->
   str_sequence (http_entry m) ->
   exists t, RestJson1.init (Raw (DMap m)) = Return t /\
             RestJson1.event_stream_http t = chars s) /\
  (m !! "eventStreamHttp" = Some (DStr "") ->
   str_sequence (http_entry m) ->
   exists t, RestJson1.init (Raw (DMap m)) = Return t /\
             RestJson1.event_stream_http t = RestJson1.http t).
Proof.
  split; [| split].
  - intros E He. exists (built m). split.
    + apply init_mapping_Return; [| exact He].
      unfold http_entry, dict_get. rewrite E. apply str_is_str_sequence.
    + unfold built, http_entry, dict_get; simpl. rewrite E. reflexivity.
  - intros E Hs Hh. exists (built m). split.
    + apply init_mapping_Return; [exact Hh |].
      unfold event_stream_entry, dict_get. rewrite E. intros _.
      apply str_is_str_sequence.
    + unfold built, event_stream_entry, dict_get; simpl. rewrite E; simpl.
      case_bool_decide; [contradiction | reflexivity].
  - intros E Hh. exists (built m). split.
    + apply init_mapping_Return; [exact Hh |].
      unfold event_stream_entry, dict_get. rewrite E. discriminate.
    + unfold built, event_stream_entry, dict_get; simpl. rewrite E.
      reflexivity.
Qed.

Lemma bare_string_accepted_witness :
  exists t,
    RestJson1.init (Raw (DMap {[ "http" := DStr "h2" ]})) = Return t /\
    RestJson1.http t = [DStr "h"; DStr "2"].
Proof.
  apply (proj1 (bare_string_accepted {[ "http" := DStr "h2" ]} "h2")).
  - vm_compute; reflexivity.
  - vm_compute; discriminate.
Defined.

(** ** Equality, hash and representation of [RestJson1Trait] *)

Section DataclassFacts.

Variable py_eq : RestJson1.PyVal -> RestJson1.PyVal -> bool.
Variable py_hash : list RestJson1.PyVal -> py Z.
Variable py_repr : RestJson1.PyVal -> string.

Lemma compared_values (t : RestJson1.RestJson1Trait) :
  RestJson1.values_of RestJson1.field_compare t
  = [RestJson1.VDoc (RestJson1.document_value t)].
Proof. reflexivity. Qed.

Lemma hashed_values (t : RestJson1.RestJson1Trait) :
  RestJson1.values_of RestJson1.in_hash t
  = [RestJson1.VDoc (RestJson1.document_value t)].
Proof. reflexivity. Qed.

Lemma repr_document_value (t : RestJson1.RestJson1Trait) :
  RestJson1.repr py_repr t
  = "RestJson1Trait(document_value="
    ++ py_repr (RestJson1.VDoc (RestJson1.document_value t)) ++ ")".
Proof. reflexivity. Qed.

(** C9: two instances with the same backing value are equal, have the
    same hash (or both fail to hash) and the same representation, whatever
    their [http] and [event_stream_http] fields hold; the representation
    shows the [document_value] field only. *)
Theorem http_fields_not_compared
    (py_eq_refl : forall v, py_eq v v = true)
    (t1 t2 : RestJson1.RestJson1Trait) :
  RestJson1.document_value t1 = RestJson1.document_value t2 ->
  RestJson1.eq py_eq t1 t2 = true /\
  RestJson1.hash py_hash t1 = RestJson1.hash py_hash t2 /\
  RestJson1.repr py_repr t1 = RestJson1.repr py_repr t2 /\
  RestJson1.repr py_repr t1
  = "RestJson1Trait(document_value="
    ++ py_repr (RestJson1.VDoc (RestJson1.document_value t1)) ++ ")".
Proof.
  intros Hdv.
  unfold RestJson1.eq, RestJson1.hash.
  rewrite !compared_values, !hashed_values, !repr_document_value, Hdv.
  simpl. rewrite py_eq_refl. auto.
Qed.

End DataclassFacts.

Lemma structural_eq_refl (v : RestJson1.PyVal) : structural_eq v v = true.
Proof. unfold structural_eq. apply bool_decide_eq_true. reflexivity. Qed.

Lemma http_fields_not_compared_witness :
  RestJson1.eq structural_eq
    (RestJson1.mkRestJson1Trait DNone [DStr "h2"] [DStr "h2c"])
    (RestJson1.mkRestJson1Trait DNone [DStr "http/1.1"] [DStr "http/1.1"])
  = true /\
  RestJson1.hash sample_hash
    (RestJson1.mkRestJson1Trait DNone [DStr "h2"] [DStr "h2c"])
  = RestJson1.hash sample_hash
      (RestJson1.mkRestJson1Trait DNone [DStr "http/1.1"] [DStr "http/1.1"]) /\
  RestJson1.repr sample_repr
    (RestJson1.mkRestJson1Trait DNone [DStr "h2"] [DStr "h2c"])
  = "RestJson1Trait(document_value=None)".
Proof.
  destruct (http_fields_not_compared structural_eq sample_hash sample_repr
              structural_eq_refl
              (RestJson1.mkRestJson1Trait DNone [DStr "h2"] [DStr "h2c"])
              (RestJson1.mkRestJson1Trait DNone
                 [DStr "http/1.1"] [DStr "http/1.1"])
              eq_refl)
    as (He & Hh & _ & Hr).
  split; [exact He |]. split; [exact Hh |]. exact Hr.
Defined.

(** ** Claims on [SigV4Trait] *)

Lemma sigv4_post_init_Return (v : DocumentValue) (u : unit) :
  SigV4.post_init (SigV4.mkSigV4Trait v) = Return u <->
  exists m s, v = DMap m /\ m !! "name" = Some (DStr s).
Proof.
  unfold SigV4.post_init; simpl.
  destruct v as [| | | | | | m]; simpl;
    try (split; [discriminate | intros (? & ? & ? & _); discriminate]).
  unfold dict_getitem.
  destruct (m !! "name") as [entry |] eqn:E; simpl.
  - destruct entry; simpl; destruct u;
      try (split; [discriminate | intros (? & ? & [= <-] & E'); congruence]).
    split; [eauto | reflexivity].
  - split; [discriminate | intros (? & ? & [= <-] & E'); congruence].
Qed.

(** C8, failing on the code: construction does not run the validation of
    [__post_init__]. Construction from any raw value returns a trait with
    that backing value; for [{}] and ["not-a-mapping"] it returns although
    the validation rejects them, and the failure shows only when [name] is
    read ([KeyError], [TypeError]); [{"name": "service"}] constructs with
    name ["service"]. *)
Theorem sigv4_construction_unvalidated :
  (forall v, SigV4.init (Raw v) = Return (SigV4.mkSigV4Trait v)) /\
  SigV4.init (Raw (DMap ∅)) = Return (SigV4.mkSigV4Trait (DMap ∅)) /\
  SigV4.post_init (SigV4.mkSigV4Trait (DMap ∅)) = Raise (KeyError "name") /\
  SigV4.name (SigV4.mkSigV4Trait (DMap ∅)) = Raise (KeyError "name") /\
  SigV4.init (Raw (DStr "not-a-mapping"))
  = Return (SigV4.mkSigV4Trait (DStr "not-a-mapping")) /\
  SigV4.post_init (SigV4.mkSigV4Trait (DStr "not-a-mapping"))
  = Raise AssertionError /\
  SigV4.name (SigV4.mkSigV4Trait (DStr "not-a-mapping")) = Raise TypeError /\
  SigV4.init (Raw (DMap {[ "name" := DStr "service" ]}))
  = Return (SigV4.mkSigV4Trait (DMap {[ "name" := DStr "service" ]})) /\
  SigV4.name (SigV4.mkSigV4Trait (DMap {[ "name" := DStr "service" ]}))
  = Return (DStr "service").
Proof.
  split; [intros v; reflexivity |].
  repeat split; vm_compute; reflexivity.
Qed.

(** ** Claims on the protocol *)

Section ProtocolFacts.

Import Protocols.

Variable parse_error_code : string -> string -> py (option ShapeID).
Variable parse_document_discriminator
  : AWSJSONDocument -> string -> py (option ShapeID).

Lemma Fields_contains_getitem (fs : Fields) (key : string) (f : Field) :
  Fields_getitem fs key = Return f -> Fields_contains fs key = true.
Proof.
  unfold Fields_getitem, Fields_contains.
  destruct (entries fs !! lower key) eqn:E; [| discriminate].
  intros _. apply bool_decide_eq_true. eauto.
Qed.

Lemma Fields_contains_false (fs : Fields) (key : string) :
  Fields_contains fs key = false -> Fields_getitem fs key = Raise (KeyError key).
Proof.
  unfold Fields_getitem, Fields_contains. intros H.
  apply bool_decide_eq_false in H.
  destruct (entries fs !! lower key) eqn:E; [| reflexivity].
  exfalso. apply H. eauto.
Qed.

(** C1: when the error-type header is present with at least one value,
    [identify] returns what the error-code parser returns on the first
    value and the namespace of the operation's schema; in particular
    [None] when the parser returns [None]. *)
Theorem identify_first_value (operation : APIOperation)
    (response : HTTPResponse) (f : Field) (code : string)
    (rest : list string) :
  Fields_getitem (fields response) _HEADER_KEY = Return f ->
  values f = code :: rest ->
  identify parse_error_code operation response
  = parse_error_code code (namespace (schema_id (schema operation))) /\
  (parse_error_code code (namespace (schema_id (schema operation)))
   = Return None ->
   identify parse_error_code operation response = Return None).
Proof.
  intros Hget Hvals.
  assert (H : identify parse_error_code operation response
              = parse_error_code code
                  (namespace (schema_id (schema operation)))).
  { unfold identify.
    rewrite (Fields_contains_getitem _ _ _ Hget), Hget. simpl.
    rewrite Hvals. reflexivity. }
  split; [exact H | intros <-; exact H].
Qed.

(** C2: when the error-type header is absent, and when it is present
    with an empty list of values, [identify] returns [None]. *)
Theorem identify_unknown (operation : APIOperation)
    (response : HTTPResponse) :
  (Fields_contains (fields response) _HEADER_KEY = false ->
   identify parse_error_code operation response = Return None) /\
  (forall f, Fields_getitem (fields response) _HEADER_KEY = Return f ->
             values f = [] ->
             identify parse_error_code operation response = Return None).
Proof.
  split.
  - intros H. unfold identify. rewrite H. reflexivity.
  - intros f Hget Hvals. unfold identify.
    rewrite (Fields_contains_getitem _ _ _ Hget), Hget. simpl.
    rewrite Hvals. reflexivity.
Qed.

(** C3: the discriminator of a document whose shape type is [STRUCTURE]
    is the id of its schema, whatever the payload. *)
Theorem discriminator_structure (self : AWSJSONDocument) :
  shape_type self = STRUCTURE ->
  discriminator parse_document_discriminator self
  = Return (schema_id (_schema self)) /\
  (forall payload,
     discriminator parse_document_discriminator
       (mkAWSJSONDocument payload (_schema self) (_settings self)
          (shape_type self))
     = Return (schema_id (_schema self))).
Proof.
  intros H. unfold discriminator. simpl. rewrite H.
  split; [| intros payload]; reflexivity.
Qed.

(** C4: for a document whose shape type is not [STRUCTURE], the
    discriminator raises a [DiscriminatorError] naming the shape type
    when the discriminator parser returns [None], and is the shape id the
    parser returns otherwise. *)
Theorem discriminator_polymorphic (self : AWSJSONDocument) :
  shape_type self <> STRUCTURE ->
  (parse_document_discriminator self (default_namespace (_settings self))
   = Return None ->
   discriminator parse_document_discriminator self
   = Raise (DiscriminatorError
              ("Unable to parse discriminator for "
               ++ ShapeType_str (shape_type self) ++ " document."))) /\
  (forall shape_id,
     parse_document_discriminator self (default_namespace (_settings self))
     = Return (Some shape_id) ->
     discriminator parse_document_discriminator self = Return shape_id).
Proof.
  intros H. unfold discriminator.
  case_decide; [contradiction |].
  split; [intros -> | intros shape_id ->]; reflexivity.
Qed.

End ProtocolFacts.

Lemma identify_first_value_witness :
  Protocols.identify qualify example_operation
    (error_response ["ValidationException"; "Other"])
  = Return (Some (mkShapeID "com.example" "ValidationException")).
Proof.
  apply (identify_first_value qualify example_operation
           (error_response ["ValidationException"; "Other"])
           (Protocols.mkField "X-Amzn-Errortype"
              ["ValidationException"; "Other"])
           "ValidationException" ["Other"]).
  - vm_compute; reflexivity.
  - reflexivity.
Defined.

Lemma identify_unknown_witness :
  Protocols.identify qualify example_operation
    (Protocols.mkHTTPResponse 500 (Protocols.mkFields ∅))
  = Return None /\
  Protocols.identify qualify example_operation (error_response [])
  = Return None.
Proof.
  split.
  - apply (proj1 (identify_unknown qualify example_operation
                    (Protocols.mkHTTPResponse 500 (Protocols.mkFields ∅)))).
    vm_compute; reflexivity.
  - apply (proj2 (identify_unknown qualify example_operation
                    (error_response []))
             (Protocols.mkField "X-Amzn-Errortype" [])).
    + vm_compute; reflexivity.
    + reflexivity.
Defined.

Lemma discriminator_structure_witness :
  Protocols.discriminator type_tag
    (Protocols.mkAWSJSONDocument (DMap {[ "__type" := DStr "Other" ]})
       (Protocols.mkSchema (mkShapeID "com.example" "Thing")
          Protocols.STRUCTURE)
       (Protocols.mkJSONSettings "ns") Protocols.STRUCTURE)
  = Return (mkShapeID "com.example" "Thing").
Proof.
  apply (discriminator_structure type_tag
           (Protocols.mkAWSJSONDocument (DMap {[ "__type" := DStr "Other" ]})
              (Protocols.mkSchema (mkShapeID "com.example" "Thing")
                 Protocols.STRUCTURE)
              (Protocols.mkJSONSettings "ns") Protocols.STRUCTURE)).
  reflexivity.
Defined.

Lemma discriminator_polymorphic_witness :
  Protocols.discriminator type_tag (union_document (DMap ∅))
  = Raise (DiscriminatorError
             "Unable to parse discriminator for ShapeType.UNION document.") /\
  Protocols.discriminator type_tag
    (union_document (DMap {[ "__type" := DStr "T" ]}))
  = Return (mkShapeID "ns" "T").
Proof.
  split.
  - apply (proj1 (discriminator_polymorphic type_tag
                    (union_document (DMap ∅)) ltac:(discriminate))).
    vm_compute; reflexivity.
  - apply (proj2 (discriminator_polymorphic type_tag
                    (union_document (DMap {[ "__type" := DStr "T" ]}))
                    ltac:(discriminate))).
    vm_compute; reflexivity.
Defined.


(** * Further properties of [RestJson1Trait.__init__] *)

Lemma assert_all_str_Raise (vals : list DocumentValue) (e : exn) :
  RestJson1.assert_all_str vals = Raise e -> e = AssertionError.
Proof.
  induction vals as [| val rest IH]; simpl; [discriminate |].
  destruct (isinstance_str val); simpl; [exact IH | congruence].
Qed.

(** The three ways [value or {}] can go for a raw value. *)
Lemma value_or_empty_cases (v : DocumentValue) :
  (truthy v = false /\
   RestJson1.value_or_empty (Raw v) = Raw (DMap ∅)) \/
  (exists m, v = DMap m /\ truthy v = true) \/
  (truthy v = true /\ isinstance_Mapping v = false /\
   RestJson1.value_or_empty (Raw v) = Raw v).
Proof.
  unfold RestJson1.value_or_empty.
  destruct (truthy v) eqn:Ht; [| left; auto].
  right. destruct v; simpl; eauto.
Qed.

(** Construction from a raw value that [value or {}] turns into the mapping
    [m] goes as construction from [m], the raw value staying the backing
    value. *)
Lemma init_raw_as_mapping (v : DocumentValue)
    (m : gmap string DocumentValue) :
  RestJson1.value_or_empty (Raw v) = Raw (DMap m) ->
  RestJson1.init (Raw v)
  = (t ← RestJson1.init (Raw (DMap m));
     Return (RestJson1.mkRestJson1Trait v
               (RestJson1.http t) (RestJson1.event_stream_http t))).
Proof.
  intros Hv. unfold RestJson1.init. simpl Trait_init.
  rewrite value_or_empty_DMap, Hv. simpl.
  fold (http_entry m) (event_stream_entry m).
  destruct (isinstance_Sequence (http_entry m)); simpl; [| reflexivity].
  destruct (RestJson1.assert_all_str (iter (http_entry m))) as [[] | e];
    simpl; [| reflexivity].
  destruct (truthy (event_stream_entry m)); simpl; [| reflexivity].
  destruct (isinstance_Sequence (event_stream_entry m)); simpl;
    [| reflexivity].
  destruct (RestJson1.assert_all_str (iter (event_stream_entry m)))
    as [[] | e]; reflexivity.
Qed.

Lemma built_empty :
  built ∅
  = RestJson1.mkRestJson1Trait (DMap ∅)
      [DStr "http/1.1"] [DStr "http/1.1"].
Proof. reflexivity. Qed.

Lemma init_empty_mapping :
  RestJson1.init (Raw (DMap ∅)) = Return (built ∅).
Proof. reflexivity. Qed.

Lemma init_raw_falsy (v : DocumentValue) :
  truthy v = false ->
  RestJson1.init (Raw v)
  = Return (RestJson1.mkRestJson1Trait v
              [DStr "http/1.1"] [DStr "http/1.1"]).
Proof.
  intros Ht.
  destruct (value_or_empty_cases v) as [[_ Hv] | [(m & -> & Ht') | (Ht' & _)]];
    try congruence.
  rewrite (init_raw_as_mapping v ∅ Hv), init_empty_mapping. reflexivity.
Qed.

Lemma init_raw_non_mapping (v : DocumentValue) :
  truthy v = true -> isinstance_Mapping v = false ->
  RestJson1.init (Raw v) = Raise AssertionError.
Proof.
  intros Ht Hm. unfold RestJson1.init, RestJson1.value_or_empty.
  simpl Trait_init. rewrite Ht.
  destruct v; try discriminate; reflexivity.
Qed.

Lemma init_dynamic (d : DynamicTrait) (t : RestJson1.RestJson1Trait) :
  RestJson1.init (Dynamic d) <> Return t.
Proof.
  unfold RestJson1.init, Trait_init.
  destruct (decide (dynamic_id d = RestJson1.id)); simpl; discriminate.
Qed.

Lemma init_mapping_Raise (m : gmap string DocumentValue) (e : exn) :
  RestJson1.init (Raw (DMap m)) = Raise e -> e = AssertionError.
Proof.
  unfold RestJson1.init. simpl Trait_init.
  rewrite value_or_empty_DMap. simpl.
  fold (http_entry m) (event_stream_entry m).
  destruct (isinstance_Sequence (http_entry m)); simpl; [| congruence].
  destruct (RestJson1.assert_all_str (iter (http_entry m))) as [[] | e1] eqn:Hh;
    simpl; [| apply assert_all_str_Raise in Hh; congruence].
  destruct (truthy (event_stream_entry m)); simpl; [| discriminate].
  destruct (isinstance_Sequence (event_stream_entry m)); simpl;
    [| congruence].
  destruct (RestJson1.assert_all_str (iter (event_stream_entry m)))
    as [[] | e2] eqn:He; simpl; [discriminate |].
  apply assert_all_str_Raise in He. congruence.
Qed.

(** The fields of a trait that was built, in terms of the mapping that
    [value or {}] gave. *)
Lemma init_Return_inv (value : TraitValue) (t : RestJson1.RestJson1Trait) :
  RestJson1.init value = Return t ->
  exists v m,
    value = Raw v /\
    RestJson1.value_or_empty (Raw v) = Raw (DMap m) /\
    str_sequence (http_entry m) /\
    (truthy (event_stream_entry m) = true ->
     str_sequence (event_stream_entry m)) /\
    t = RestJson1.mkRestJson1Trait v
          (RestJson1.http (built m)) (RestJson1.event_stream_http (built m)).
Proof.
  destruct value as [v | d];
    [| intros Hinit; destruct (init_dynamic d t Hinit)].
  intros Hinit. exists v.
  destruct (value_or_empty_cases v)
    as [[Ht Hv] | [(m & -> & Ht) | (Ht & Hm & _)]].
  - exists ∅. split; [reflexivity |]. split; [exact Hv |].
    rewrite (init_raw_falsy v Ht) in Hinit. injection Hinit as <-.
    split; [apply (str_list_is_str_sequence ["http/1.1"]) |].
    split; [discriminate | reflexivity].
  - exists m. split; [reflexivity |].
    split; [apply value_or_empty_DMap |].
    destruct (init_mapping_inv m t Hinit) as (Hh & He & ->). auto.
  - rewrite (init_raw_non_mapping v Ht Hm) in Hinit. discriminate.
Qed.

Lemma built_event_stream (m : gmap string DocumentValue) :
  (truthy (event_stream_entry m) = true ->
   str_sequence (event_stream_entry m)) ->
  RestJson1.event_stream_http (built m) = RestJson1.http (built m) \/
  RestJson1.event_stream_http (built m) <> [].
Proof.
  intros He. unfold built; simpl.
  destruct (truthy (event_stream_entry m)) eqn:Ht; [| left; reflexivity].
  right. intros Hnil.
  apply truthy_sequence in Hnil; [congruence | apply (He eq_refl)].
Qed.

Lemma built_strings (m : gmap string DocumentValue) :
  str_sequence (http_entry m) ->
  (truthy (event_stream_entry m) = true ->
   str_sequence (event_stream_entry m)) ->
  Forall (fun x => isinstance_str x = true) (RestJson1.http (built m)) /\
  Forall (fun x => isinstance_str x = true)
    (RestJson1.event_stream_http (built m)).
Proof.
  intros [_ Hh] He. unfold built; simpl. split; [exact Hh |].
  destruct (truthy (event_stream_entry m)); [apply (He eq_refl) | exact Hh].
Qed.

Lemma init_mapping_entries (m1 m2 : gmap string DocumentValue) :
  http_entry m1 = http_entry m2 ->
  event_stream_entry m1 = event_stream_entry m2 ->
  RestJson1.init (Raw (DMap m1))
  = (t ← RestJson1.init (Raw (DMap m2));
     Return (RestJson1.mkRestJson1Trait (DMap m1)
               (RestJson1.http t) (RestJson1.event_stream_http t))).
Proof.
  intros Hh He. unfold RestJson1.init. simpl Trait_init.
  rewrite !value_or_empty_DMap. simpl.
  fold (http_entry m1) (event_stream_entry m1)
       (http_entry m2) (event_stream_entry m2).
  rewrite Hh, He.
  destruct (isinstance_Sequence (http_entry m2)); simpl; [| reflexivity].
  destruct (RestJson1.assert_all_str (iter (http_entry m2))) as [[] | e];
    simpl; [| reflexivity].
  destruct (truthy (event_stream_entry m2)); simpl; [| reflexivity].
  destruct (isinstance_Sequence (event_stream_entry m2)); simpl;
    [| reflexivity].
  destruct (RestJson1.assert_all_str (iter (event_stream_entry m2)))
    as [[] | e]; reflexivity.
Qed.

(** X1: whenever construction from a raw document value fails, the
    exception is an [AssertionError]; no lookup of [__init__] raises a
    [KeyError] or a [TypeError]. *)
Theorem init_fails_by_assertion (v : DocumentValue) (e : exn) :
  RestJson1.init (Raw v) = Raise e -> e = AssertionError.
Proof.
  intros Hinit.
  destruct (value_or_empty_cases v)
    as [[Ht _] | [(m & -> & _) | (Ht & Hm & _)]].
  - rewrite (init_raw_falsy v Ht) in Hinit. discriminate.
  - exact (init_mapping_Raise m e Hinit).
  - rewrite (init_raw_non_mapping v Ht Hm) in Hinit. congruence.
Qed.

Lemma init_fails_by_assertion_witness :
  RestJson1.init (Raw (DMap {[ "http" := DList [DInt 2] ]}))
  = Raise AssertionError /\ AssertionError = AssertionError.
Proof.
  assert (H : RestJson1.init (Raw (DMap {[ "http" := DList [DInt 2] ]}))
              = Raise AssertionError) by (vm_compute; reflexivity).
  split; [exact H |].
  exact (init_fails_by_assertion _ AssertionError H).
Defined.

(** X2: construction from a mapping succeeds exactly when the [http] entry
    (or its default) is a sequence of strings and the [eventStreamHttp]
    entry is false or a sequence of strings. *)
Theorem init_accepts_exactly (m : gmap string DocumentValue) :
  returns (RestJson1.init (Raw (DMap m))) <->
  str_sequence (http_entry m) /\
  (truthy (event_stream_entry m) = true ->
   str_sequence (event_stream_entry m)).
Proof.
  split.
  - intros [t Ht]. destruct (init_mapping_inv m t Ht) as (Hh & He & _). auto.
  - intros [Hh He]. exists (built m). apply init_mapping_Return; assumption.
Qed.

(** X3: a false raw value of any type ([None], [False], [0], [""], [b""],
    [[]], [{}]) is taken as an empty configuration: construction succeeds
    with both fields [("http/1.1",)]. *)
Theorem falsy_value_is_empty_configuration (v : DocumentValue) :
  truthy v = false ->
  exists t,
    RestJson1.init (Raw v) = Return t /\
    RestJson1.http t = [DStr "http/1.1"] /\
    RestJson1.event_stream_http t = [DStr "http/1.1"].
Proof.
  intros Ht. eexists. split; [apply (init_raw_falsy v Ht) |].
  split; reflexivity.
Qed.

Lemma falsy_value_is_empty_configuration_witness :
  exists t,
    RestJson1.init (Raw (DStr "")) = Return t /\
    RestJson1.http t = [DStr "http/1.1"] /\
    RestJson1.event_stream_http t = [DStr "http/1.1"].
Proof.
  apply (falsy_value_is_empty_configuration (DStr "")). reflexivity.
Defined.

(** X4: a true raw value that is not a mapping (a non-empty string or list,
    a non-zero number, [True]) is rejected with an [AssertionError]. *)
Theorem truthy_non_mapping_rejected (v : DocumentValue) :
  truthy v = true -> isinstance_Mapping v = false ->
  RestJson1.init (Raw v) = Raise AssertionError.
Proof. apply init_raw_non_mapping. Qed.

Lemma truthy_non_mapping_rejected_witness :
  RestJson1.init (Raw (DList [DStr "h2"])) = Raise AssertionError.
Proof.
  apply (truthy_non_mapping_rejected (DList [DStr "h2"])); reflexivity.
Defined.

(** X5: construction returns only for a raw document value: with a
    [DynamicTrait] argument [value or {}] is the [DynamicTrait] itself,
    which is not a mapping, and construction fails. *)
Theorem dynamic_trait_rejected (value : TraitValue) :
  returns (RestJson1.init value) -> exists v, value = Raw v.
Proof.
  intros [t Ht].
  destruct (init_Return_inv value t Ht) as (v & _ & -> & _). eauto.
Qed.

Lemma dynamic_trait_rejected_witness :
  exists v, Raw DNone = Raw v.
Proof.
  apply (dynamic_trait_rejected (Raw DNone)).
  exists (RestJson1.mkRestJson1Trait DNone
            [DStr "http/1.1"] [DStr "http/1.1"]).
  reflexivity.
Defined.

(** X6: after any successful construction every item of [http] and every
    item of [event_stream_http] is a string. *)
Theorem fields_hold_strings (value : TraitValue)
    (t : RestJson1.RestJson1Trait) :
  RestJson1.init value = Return t ->
  Forall (fun x => isinstance_str x = true) (RestJson1.http t) /\
  Forall (fun x => isinstance_str x = true) (RestJson1.event_stream_http t).
Proof.
  intros Hinit.
  destruct (init_Return_inv value t Hinit) as (v & m & _ & _ & Hh & He & ->).
  exact (built_strings m Hh He).
Qed.

Lemma fields_hold_strings_witness :
  Forall (fun x => isinstance_str x = true)
    (RestJson1.http (built h2_h2c)) /\
  Forall (fun x => isinstance_str x = true)
    (RestJson1.event_stream_http (built h2_h2c)).
Proof.
  apply (fields_hold_strings (Raw (DMap h2_h2c)) (built h2_h2c)).
  vm_compute; reflexivity.
Defined.

(** X7: after any successful construction [event_stream_http] is the [http]
    tuple or is non-empty; it is empty only when [http] is empty. *)
Theorem event_stream_http_empty_only_with_http (value : TraitValue)
    (t : RestJson1.RestJson1Trait) :
  RestJson1.init value = Return t ->
  (RestJson1.event_stream_http t = RestJson1.http t \/
   RestJson1.event_stream_http t <> []) /\
  (RestJson1.event_stream_http t = [] -> RestJson1.http t = []).
Proof.
  intros Hinit.
  destruct (init_Return_inv value t Hinit) as (v & m & _ & _ & _ & He & ->).
  cbn [RestJson1.http RestJson1.event_stream_http].
  pose proof (built_event_stream m He) as H.
  split; [exact H |].
  intros Hnil. destruct H as [H | H]; congruence.
Qed.

Lemma event_stream_http_empty_only_with_http_witness :
  RestJson1.event_stream_http (built {[ "http" := DList [] ]})
  = RestJson1.http (built {[ "http" := DList [] ]}) \/
  RestJson1.event_stream_http (built {[ "http" := DList [] ]}) <> [].
Proof.
  apply (event_stream_http_empty_only_with_http
           (Raw (DMap {[ "http" := DList [] ]}))
           (built {[ "http" := DList [] ]})).
  vm_compute; reflexivity.
Defined.

(** X8: an [eventStreamHttp] entry that is false is ignored whatever its
    type ([None], [0], [False], [{}], an empty sequence): with a valid
    [http] entry construction succeeds and [event_stream_http] is the
    [http] tuple. *)
Theorem falsy_event_stream_entry_ignored (m : gmap string DocumentValue) :
  truthy (event_stream_entry m) = false ->
  str_sequence (http_entry m) ->
  RestJson1.init (Raw (DMap m))
  = Return (RestJson1.mkRestJson1Trait (DMap m)
              (tuple (http_entry m)) (tuple (http_entry m))).
Proof.
  intros Ht Hh.
  rewrite (init_mapping_Return m Hh); [| congruence].
  unfold built. rewrite Ht. reflexivity.
Qed.

Lemma falsy_event_stream_entry_ignored_witness :
  RestJson1.init
    (Raw (DMap {[ "http" := DList [DStr "h2"]; "eventStreamHttp" := DInt 0 ]}))
  = Return
      (RestJson1.mkRestJson1Trait
         (DMap {[ "http" := DList [DStr "h2"]; "eventStreamHttp" := DInt 0 ]})
         [DStr "h2"] [DStr "h2"]).
Proof.
  rewrite (falsy_event_stream_entry_ignored
             {[ "http" := DList [DStr "h2"]; "eventStreamHttp" := DInt 0 ]}).
  - vm_compute; reflexivity.
  - vm_compute; reflexivity.
  - split; [vm_compute; reflexivity |].
    vm_compute. repeat constructor.
Defined.

(** X9: an [http] entry that is present but not a sequence is rejected with
    an [AssertionError], also when it is false ([None], [0], [{}]): the
    default applies to an absent key only. A true [eventStreamHttp] entry
    that is not a sequence is rejected likewise. *)
Theorem non_sequence_entry_rejected (m : gmap string DocumentValue)
    (v : DocumentValue) :
  isinstance_Sequence v = false ->
  (m !! "http" = Some v \/
   (m !! "eventStreamHttp" = Some v /\ truthy v = true)) ->
  RestJson1.init (Raw (DMap m)) = Raise AssertionError.
Proof.
  intros Hseq Hentry.
  destruct (RestJson1.init (Raw (DMap m))) as [t | e] eqn:Hinit.
  - exfalso.
    destruct (init_mapping_inv m t Hinit) as ([Hh _] & He & _).
    destruct Hentry as [E | [E Ht]].
    + unfold http_entry, dict_get in Hh. rewrite E in Hh. simpl in Hh.
      congruence.
    + unfold event_stream_entry, dict_get in He. rewrite E in He.
      simpl in He. destruct (He Ht) as [Hs _]. congruence.
  - f_equal. exact (init_mapping_Raise m e Hinit).
Qed.

Lemma non_sequence_entry_rejected_witness :
  RestJson1.init (Raw (DMap {[ "http" := DNone ]})) = Raise AssertionError.
Proof.
  apply (non_sequence_entry_rejected {[ "http" := DNone ]} DNone).
  - reflexivity.
  - left. vm_compute; reflexivity.
Defined.

(** X10: the fields of a built trait are a fixed point of construction:
    constructing again from the mapping whose [http] and [eventStreamHttp]
    entries are the lists of the two fields succeeds with the same two
    fields. *)
Theorem reconstruction_keeps_fields (value : TraitValue)
    (t : RestJson1.RestJson1Trait) :
  RestJson1.init value = Return t ->
  exists t',
    RestJson1.init
      (Raw (DMap {[ "http" := DList (RestJson1.http t);
                    "eventStreamHttp"
                      := DList (RestJson1.event_stream_http t) ]}))
    = Return t' /\
    RestJson1.http t' = RestJson1.http t /\
    RestJson1.event_stream_http t' = RestJson1.event_stream_http t.
Proof.
  intros Hinit.
  destruct (init_Return_inv value t Hinit) as (v & m & _ & _ & Hh & He & ->).
  destruct (built_strings m Hh He) as [Sh Se].
  pose proof (built_event_stream m He) as Hev.
  cbn [RestJson1.http RestJson1.event_stream_http].
  set (h := RestJson1.http (built m)) in *.
  set (es := RestJson1.event_stream_http (built m)) in *.
  set (m' := ({[ "http" := DList h; "eventStreamHttp" := DList es ]}
              : gmap string DocumentValue)).
  assert (Eh : http_entry m' = DList h).
  { unfold http_entry, dict_get, m'. rewrite lookup_insert_eq. reflexivity. }
  assert (Ee : event_stream_entry m' = DList es).
  { unfold event_stream_entry, dict_get, m'.
    rewrite lookup_insert_ne by discriminate.
    rewrite lookup_singleton_eq. reflexivity. }
  exists (built m'). split.
  - apply init_mapping_Return.
    + rewrite Eh. split; [reflexivity | exact Sh].
    + rewrite Ee. intros _. split; [reflexivity | exact Se].
  - unfold built. cbn [RestJson1.http RestJson1.event_stream_http].
    rewrite Eh, Ee. split; [reflexivity |].
    destruct es as [| x es']; simpl; [| reflexivity].
    destruct Hev as [Hev | Hev]; congruence.
Qed.

Lemma reconstruction_keeps_fields_witness :
  exists t',
    RestJson1.init
      (Raw (DMap {[ "http"
                      := DList (RestJson1.http (built {[ "http" := DStr "h2" ]}));
                    "eventStreamHttp"
                      := DList (RestJson1.event_stream_http
                                  (built {[ "http" := DStr "h2" ]})) ]}))
    = Return t' /\
    RestJson1.http t' = RestJson1.http (built {[ "http" := DStr "h2" ]}) /\
    RestJson1.event_stream_http t'
    = RestJson1.event_stream_http (built {[ "http" := DStr "h2" ]}).
Proof.
  apply (reconstruction_keeps_fields (Raw (DMap {[ "http" := DStr "h2" ]}))
           (built {[ "http" := DStr "h2" ]})).
  vm_compute; reflexivity.
Defined.

(** X11: entries under keys other than [http] and [eventStreamHttp] are
    not read: adding or replacing one changes neither the outcome of
    construction nor the two fields. *)
Theorem other_keys_ignored (m : gmap string DocumentValue) (k : string)
    (x : DocumentValue) :
  k <> "http" -> k <> "eventStreamHttp" ->
  RestJson1.init (Raw (DMap (<[k := x]> m)))
  = (t ← RestJson1.init (Raw (DMap m));
     Return (RestJson1.mkRestJson1Trait (DMap (<[k := x]> m))
               (RestJson1.http t) (RestJson1.event_stream_http t))).
Proof.
  intros Hk1 Hk2. apply init_mapping_entries.
  - unfold http_entry, dict_get. rewrite lookup_insert_ne by exact Hk1.
    reflexivity.
  - unfold event_stream_entry, dict_get.
    rewrite lookup_insert_ne by exact Hk2. reflexivity.
Qed.

Lemma other_keys_ignored_witness :
  RestJson1.init
    (Raw (DMap (<["noInlineDocumentSupport" := DBool true]>
                  {[ "http" := DList [DStr "h2"] ]})))
  = Return
      (RestJson1.mkRestJson1Trait
         (DMap (<["noInlineDocumentSupport" := DBool true]>
                  {[ "http" := DList [DStr "h2"] ]}))
         [DStr "h2"] [DStr "h2"]).
Proof.
  rewrite (other_keys_ignored {[ "http" := DList [DStr "h2"] ]}
             "noInlineDocumentSupport" (DBool true));
    [| discriminate | discriminate].
  vm_compute; reflexivity.
Defined.

(** * Further properties of the dataclass methods *)

Lemma init_raw_backing (v : DocumentValue) (t : RestJson1.RestJson1Trait) :
  RestJson1.init (Raw v) = Return t -> RestJson1.document_value t = v.
Proof.
  intros Hinit.
  destruct (init_Return_inv (Raw v) t Hinit) as (v' & m & [= <-] & _ & _ & _ & ->).
  reflexivity.
Qed.

(** X12: two traits built from raw values compare as the raw values do, and
    a built trait hashes as the one-item tuple of its raw value does (so it
    cannot be hashed when that tuple cannot): traits with the same two
    fields built from different raw values, such as [None] and [{}], are
    equal only if those values are. *)
Theorem built_traits_compare_by_raw_value
    (py_eq : RestJson1.PyVal -> RestJson1.PyVal -> bool)
    (py_hash : list RestJson1.PyVal -> py Z)
    (v1 v2 : DocumentValue) (t1 t2 : RestJson1.RestJson1Trait) :
  RestJson1.init (Raw v1) = Return t1 ->
  RestJson1.init (Raw v2) = Return t2 ->
  RestJson1.eq py_eq t1 t2
  = py_eq (RestJson1.VDoc v1) (RestJson1.VDoc v2) /\
  RestJson1.hash py_hash t1 = py_hash [RestJson1.VDoc v1].
Proof.
  intros H1 H2.
  apply init_raw_backing in H1. apply init_raw_backing in H2.
  unfold RestJson1.eq, RestJson1.hash.
  rewrite !compared_values, hashed_values, H1, H2. simpl.
  rewrite andb_true_r. auto.
Qed.

Lemma built_traits_compare_by_raw_value_witness :
  RestJson1.eq structural_eq
    (RestJson1.mkRestJson1Trait DNone [DStr "http/1.1"] [DStr "http/1.1"])
    (built ∅)
  = structural_eq (RestJson1.VDoc DNone) (RestJson1.VDoc (DMap ∅)) /\
  RestJson1.hash sample_hash
    (RestJson1.mkRestJson1Trait DNone [DStr "http/1.1"] [DStr "http/1.1"])
  = sample_hash [RestJson1.VDoc DNone].
Proof.
  apply (built_traits_compare_by_raw_value structural_eq sample_hash
           DNone (DMap ∅)
           (RestJson1.mkRestJson1Trait DNone
              [DStr "http/1.1"] [DStr "http/1.1"])
           (built ∅)); reflexivity.
Defined.

(** * Further properties of [SigV4Trait] *)

(** X13: the validation of [__post_init__] fails in two ways only: with
    [KeyError] for [name] when the backing value is a mapping without a
    [name] entry, and with [AssertionError] when the backing value is not a
    mapping or its [name] entry is not a string. *)
Theorem sigv4_validation_errors (v : DocumentValue) (e : exn) :
  SigV4.post_init (SigV4.mkSigV4Trait v) = Raise e ->
  (e = KeyError "name" /\ exists m, v = DMap m /\ m !! "name" = None) \/
  (e = AssertionError /\
   (isinstance_Mapping v = false \/
    exists m x, v = DMap m /\ m !! "name" = Some x /\
                isinstance_str x = false)).
Proof.
  unfold SigV4.post_init; simpl.
  destruct v as [| | | | | | m]; simpl;
    try (intros [= <-]; right; auto).
  unfold dict_getitem.
  destruct (m !! "name") as [x |] eqn:E; simpl.
  - destruct (isinstance_str x) eqn:Hx; simpl; [discriminate |].
    intros [= <-]. right. split; [reflexivity |]. right. eauto.
  - intros [= <-]. left. eauto.
Qed.

Lemma sigv4_validation_errors_witness :
  (KeyError "name" = KeyError "name" /\
   exists m, DMap ∅ = DMap m /\ m !! "name" = None) \/
  (KeyError "name" = AssertionError /\
   (isinstance_Mapping (DMap ∅) = false \/
    exists m x, DMap ∅ = DMap m /\ m !! "name" = Some x /\
                isinstance_str x = false)).
Proof.
  apply (sigv4_validation_errors (DMap ∅) (KeyError "name")).
  vm_compute; reflexivity.
Defined.

(** X14: only the [name] entry is read: adding or replacing an entry under
    another key changes neither the outcome of the validation nor the
    [name] property. *)
Theorem sigv4_other_keys_ignored (m : gmap string DocumentValue)
    (k : string) (x : DocumentValue) :
  k <> "name" ->
  SigV4.post_init (SigV4.mkSigV4Trait (DMap (<[k := x]> m)))
  = SigV4.post_init (SigV4.mkSigV4Trait (DMap m)) /\
  SigV4.name (SigV4.mkSigV4Trait (DMap (<[k := x]> m)))
  = SigV4.name (SigV4.mkSigV4Trait (DMap m)).
Proof.
  intros Hk. unfold SigV4.post_init, SigV4.name; simpl.
  unfold dict_getitem. rewrite lookup_insert_ne by exact Hk. auto.
Qed.

Lemma sigv4_other_keys_ignored_witness :
  SigV4.post_init
    (SigV4.mkSigV4Trait
       (DMap (<["region" := DStr "us-east-1"]> {[ "name" := DStr "service" ]})))
  = SigV4.post_init
      (SigV4.mkSigV4Trait (DMap {[ "name" := DStr "service" ]})) /\
  SigV4.name
    (SigV4.mkSigV4Trait
       (DMap (<["region" := DStr "us-east-1"]> {[ "name" := DStr "service" ]})))
  = SigV4.name (SigV4.mkSigV4Trait (DMap {[ "name" := DStr "service" ]})).
Proof.
  apply (sigv4_other_keys_ignored {[ "name" := DStr "service" ]}
           "region" (DStr "us-east-1")).
  discriminate.
Defined.

(** X18: the validation of [__post_init__] accepts exactly the backing
    values that are mappings with a [name] entry that is a string, and the
    [name] property then gives that string. *)
Theorem sigv4_validation_accepts_exactly (v : DocumentValue) :
  (SigV4.post_init (SigV4.mkSigV4Trait v) = Return tt <->
   exists m s, v = DMap m /\ m !! "name" = Some (DStr s)) /\
  (forall m s, v = DMap m -> m !! "name" = Some (DStr s) ->
               SigV4.name (SigV4.mkSigV4Trait v) = Return (DStr s)).
Proof.
  split; [apply sigv4_post_init_Return |].
  intros m s -> E. unfold SigV4.name; simpl.
  unfold dict_getitem. rewrite E. reflexivity.
Qed.

Lemma sigv4_validation_accepts_exactly_witness :
  SigV4.name (SigV4.mkSigV4Trait (DMap {[ "name" := DStr "service" ]}))
  = Return (DStr "service").
Proof.
  apply (proj2 (sigv4_validation_accepts_exactly
                  (DMap {[ "name" := DStr "service" ]}))
           {[ "name" := DStr "service" ]} "service").
  - reflexivity.
  - vm_compute; reflexivity.
Defined.

(** * Further properties of the protocol *)

Section ProtocolCases.

Import Protocols.

Variable parse_error_code : string -> string -> py (option ShapeID).
Variable parse_document_discriminator
  : AWSJSONDocument -> string -> py (option ShapeID).

(** The three paths through [identify]. *)
Lemma identify_cases (operation : APIOperation) (response : HTTPResponse) :
  (Fields_contains (fields response) _HEADER_KEY = false /\
   identify parse_error_code operation response = Return None) \/
  (exists f, Fields_getitem (fields response) _HEADER_KEY = Return f /\
             values f = [] /\
             identify parse_error_code operation response = Return None) \/
  (exists f code rest,
     Fields_getitem (fields response) _HEADER_KEY = Return f /\
     values f = code :: rest /\
     identify parse_error_code operation response
     = parse_error_code code (namespace (schema_id (schema operation)))).
Proof.
  unfold identify.
  destruct (Fields_contains (fields response) _HEADER_KEY) eqn:Hc; simpl;
    [| left; auto].
  right.
  unfold Fields_contains in Hc. apply bool_decide_eq_true in Hc.
  destruct Hc as [f Hf].
  unfold Fields_getitem. rewrite Hf. simpl.
  destruct (values f) as [| code rest] eqn:Hv; simpl.
  - left. exists f. auto.
  - right. exists f, code, rest. auto.
Qed.

(** X15: [identify] raises only when the error-code parser, called on the
    first value of the header, raises, and then with the parser's
    exception: the lookups of the header and of its first value never raise
    a [KeyError] or an [IndexError]. *)
Theorem identify_raises_only_from_parser (operation : APIOperation)
    (response : HTTPResponse) (e : exn) :
  identify parse_error_code operation response = Raise e ->
  exists f code rest,
    Fields_getitem (fields response) _HEADER_KEY = Return f /\
    values f = code :: rest /\
    parse_error_code code (namespace (schema_id (schema operation)))
    = Raise e.
Proof.
  intros Hid.
  destruct (identify_cases operation response)
    as [[_ H] | [(f & _ & _ & H) | (f & code & rest & Hf & Hv & H)]];
    try congruence.
  exists f, code, rest. split; [exact Hf |]. split; [exact Hv |].
  congruence.
Qed.

(** X16: a shape id returned by [identify] is the answer of the error-code
    parser on the first value of the error-type header, which is then
    present; [identify] has no other source of shape ids. *)
Theorem identify_some_from_header (operation : APIOperation)
    (response : HTTPResponse) (shape_id : ShapeID) :
  identify parse_error_code operation response = Return (Some shape_id) ->
  exists f code rest,
    Fields_getitem (fields response) _HEADER_KEY = Return f /\
    values f = code :: rest /\
    parse_error_code code (namespace (schema_id (schema operation)))
    = Return (Some shape_id).
Proof.
  intros Hid.
  destruct (identify_cases operation response)
    as [[_ H] | [(f & _ & _ & H) | (f & code & rest & Hf & Hv & H)]];
    try congruence.
  exists f, code, rest. split; [exact Hf |]. split; [exact Hv |].
  congruence.
Qed.

(** X17: for a document whose shape type is not [STRUCTURE] the
    discriminator is a shape id exactly when the discriminator parser
    returns that id (the id of the static schema is never used instead),
    and the access raises exactly when the parser raises, with its
    exception, or returns [None], with the [DiscriminatorError]. *)
Theorem discriminator_follows_parser (self : AWSJSONDocument) :
  shape_type self <> STRUCTURE ->
  (forall shape_id,
     discriminator parse_document_discriminator self = Return shape_id <->
     parse_document_discriminator self (default_namespace (_settings self))
     = Return (Some shape_id)) /\
  (forall e,
     discriminator parse_document_discriminator self = Raise e <->
     parse_document_discriminator self (default_namespace (_settings self))
     = Raise e \/
     (parse_document_discriminator self (default_namespace (_settings self))
      = Return None /\
      e = DiscriminatorError
            ("Unable to parse discriminator for "
             ++ ShapeType_str (shape_type self) ++ " document."))).
Proof.
  intros Hst. unfold discriminator.
  case_decide; [contradiction |].
  destruct (parse_document_discriminator self
              (default_namespace (_settings self))) as [[sid |] | e0];
    simpl; split; intros x; split; intros Hx;
    try congruence; try (left; congruence);
    try (right; split; congruence);
    try (destruct Hx as [Hx | [Hx1 Hx2]]; congruence).
Qed.

End ProtocolCases.

Lemma identify_raises_only_from_parser_witness :
  exists f code rest,
    Protocols.Fields_getitem
      (Protocols.fields (error_response ["Boom"])) Protocols._HEADER_KEY
    = Return f /\
    Protocols.values f = code :: rest /\
    (fun _ _ : string => @Raise (option ShapeID) TypeError) code
      (namespace (Protocols.schema_id (Protocols.schema example_operation)))
    = Raise TypeError.
Proof.
  apply (identify_raises_only_from_parser
           (fun _ _ : string => @Raise (option ShapeID) TypeError)
           example_operation (error_response ["Boom"]) TypeError).
  vm_compute; reflexivity.
Defined.

Lemma identify_some_from_header_witness :
  exists f code rest,
    Protocols.Fields_getitem
      (Protocols.fields (error_response ["ValidationException"]))
      Protocols._HEADER_KEY
    = Return f /\
    Protocols.values f = code :: rest /\
    qualify code
      (namespace (Protocols.schema_id (Protocols.schema example_operation)))
    = Return (Some (mkShapeID "com.example" "ValidationException")).
Proof.
  apply (identify_some_from_header qualify example_operation
           (error_response ["ValidationException"])
           (mkShapeID "com.example" "ValidationException")).
  vm_compute; reflexivity.
Defined.

Lemma discriminator_follows_parser_witness :
  Protocols.discriminator type_tag
    (union_document (DMap {[ "__type" := DStr "T" ]}))
  = Return (mkShapeID "ns" "T").
Proof.
  apply (proj1 (discriminator_follows_parser type_tag
                  (union_document (DMap {[ "__type" := DStr "T" ]}))
                  ltac:(discriminate))).
  vm_compute; reflexivity.
Defined.
